(** * A shallow embedding of the REST handlers of [src/server.py]

    The Tornado handlers [CreateTaskHandler.post], [ListTaskHandler.get]
    and [ResultsHandler.get] are written as computations in a small
    state-and-exception monad.  The state holds the Task Record Store, the
    Redis Result Cache, the RabbitMQ work queue and a trace of the calls
    made on these collaborators, so that "the store is not read" or "no
    publish occurs" can be read off the trace.  The collaborators whose
    code lives outside [src/] ([TaskCrud], [RedisCache], [Publisher],
    [TaskSpawner], [TaskItem]) are modelled from the spec and say so. *)

From Stdlib Require Import ZArith QArith Ascii String Lia.
From stdpp Require Import base numbers gmap list strings pretty.
Open Scope string_scope.
Set Warnings "-register-all".

(** ** JSON values and [json.dumps] *)

Inductive json :=
| JNull
| JBool (b : bool)
| JNum (z : Z)
| JStr (s : string)
| JArr (xs : list json)
| JObj (kvs : list (string * json)).

(** The double-quote character (ASCII 34) and the backslash (ASCII 92). *)
Definition dq : ascii := ascii_of_nat 34.
Definition bs : ascii := ascii_of_nat 92.

(** Strings are sequences of code points; the model covers the code points
    below 256, each held in one [ascii] character. *)

Definition hex_digit (n : N) : ascii :=
  if (n <? 10)%N then ascii_of_N (48 + n) else ascii_of_N (87 + n).
Definition hex2 (n : N) : string :=
  String (hex_digit (n / 16)%N) (String (hex_digit (n mod 16)%N) EmptyString).

(** [py_encode_basestring_ascii], the escaping of [json.dumps] with its
    default [ensure_ascii=True]: the quote, the backslash and the five
    named control characters get a short escape, every other character
    outside [' '..'~'] becomes [\u00XX]. *)
Definition escape_char (c : ascii) : string :=
  let n := N_of_ascii c in
  if (n =? 34)%N then String bs (String dq EmptyString)
  else if (n =? 92)%N then String bs (String bs EmptyString)
  else if (n =? 10)%N then "\n"
  else if (n =? 13)%N then "\r"
  else if (n =? 9)%N then "\t"
  else if (n =? 8)%N then "\b"
  else if (n =? 12)%N then "\f"
  else if (32 <=? n)%N && (n <=? 126)%N then String c EmptyString
  else "\u00" +:+ hex2 n.

Fixpoint escape (s : string) : string :=
  match s with
  | EmptyString => EmptyString
  | String c rest => escape_char c +:+ escape rest
  end.

Definition quote (s : string) : string := String dq (escape s +:+ String dq EmptyString).

Fixpoint join (sep : string) (xs : list string) : string :=
  match xs with
  | [] => EmptyString
  | [x] => x
  | x :: rest => x +:+ sep +:+ join sep rest
  end.

(** [json.dumps] with its default separators [", "] and [": "].  Integers
    are written with [int.__repr__]; those of more than 4300 digits, on
    which it raises, do not occur in the records modelled here. *)
Fixpoint dumps (j : json) : string :=
  match j with
  | JNull => "null"
  | JBool true => "true"
  | JBool false => "false"
  | JNum z => pretty z
  | JStr s => quote s
  | JArr xs => "[" +:+ join ", " (map dumps xs) +:+ "]"
  | JObj kvs =>
      "{" +:+ join ", " (map (fun kv => quote kv.1 +:+ ": " +:+ dumps kv.2) kvs) +:+ "}"
  end.

(** ** Task status and the Task Record Store *)

(** [TaskStatus] (src/server/structures/task.py, not under src/).
    Modelled from the spec: the statuses are PENDING, SUCCESS and ERROR,
    PENDING being the initial one. *)
Inductive TaskStatus := PENDING | SUCCESS | ERROR.

Definition status_value (s : TaskStatus) : string :=
  match s with PENDING => "pending" | SUCCESS => "success" | ERROR => "error" end.

Definition is_terminal (s : TaskStatus) : bool :=
  match s with PENDING => false | _ => true end.

Record task_record := { tr_status : TaskStatus; tr_result : json }.

(** ** Calls made on the collaborators *)

Inductive event :=
| EvCreateRecord (tid : string)
| EvRunTask (tid : string)
| EvPublish (tid : string)
| EvStoreRead (tid : string)
| EvStoreList
| EvCacheGet (key : string)
| EvCacheSet (key value : string)
| EvLog (msg : string).

Definition is_dispatch (e : event) : bool :=
  match e with EvRunTask _ | EvPublish _ => true | _ => false end.

Record pyst := {
  records : gmap string task_record;   (* Task Record Store *)
  cache : gmap string string;          (* Redis Result Cache *)
  queue : list (string * json);        (* RabbitMQ work queue *)
  trace : list event;
  next_id : N;                         (* source of fresh task ids *)
  cache_write_fails : bool;            (* the Redis backend refuses writes *)
  create_fails : bool;                 (* the store refuses to create a record *)
  publish_fails : bool;                (* the broker refuses a publish *)
  run_fails : bool                     (* the synchronous run itself raises *)
}.

Definition set_records (m : gmap string task_record) (s : pyst) : pyst :=
  {| records := m; cache := cache s; queue := queue s; trace := trace s;
     next_id := next_id s; cache_write_fails := cache_write_fails s;
     create_fails := create_fails s; publish_fails := publish_fails s; run_fails := run_fails s |}.
Definition set_cache (m : gmap string string) (s : pyst) : pyst :=
  {| records := records s; cache := m; queue := queue s; trace := trace s;
     next_id := next_id s; cache_write_fails := cache_write_fails s;
     create_fails := create_fails s; publish_fails := publish_fails s; run_fails := run_fails s |}.
Definition set_queue (q : list (string * json)) (s : pyst) : pyst :=
  {| records := records s; cache := cache s; queue := q; trace := trace s;
     next_id := next_id s; cache_write_fails := cache_write_fails s;
     create_fails := create_fails s; publish_fails := publish_fails s; run_fails := run_fails s |}.
Definition set_next_id (n : N) (s : pyst) : pyst :=
  {| records := records s; cache := cache s; queue := queue s; trace := trace s;
     next_id := n; cache_write_fails := cache_write_fails s;
     create_fails := create_fails s; publish_fails := publish_fails s; run_fails := run_fails s |}.
Definition record_event (e : event) (s : pyst) : pyst :=
  {| records := records s; cache := cache s; queue := queue s; trace := trace s ++ [e];
     next_id := next_id s; cache_write_fails := cache_write_fails s;
     create_fails := create_fails s; publish_fails := publish_fails s; run_fails := run_fails s |}.

(** ** Python exceptions and the handler monad *)

Inductive exc :=
| JSONDecodeError
| TaskNotFoundError (tid : string)
| ValueError (msg : string)
| AttributeError (msg : string)
| DatabaseError (msg : string)
| DispatchFailure (msg : string).

(** [str(e)] *)
Definition str_exc (e : exc) : string :=
  match e with
  | JSONDecodeError => "Expecting value: line 1 column 1 (char 0)"
  | TaskNotFoundError tid => "Task '" +:+ tid +:+ "' not found"
  | ValueError m => m
  | AttributeError m => m
  | DatabaseError m => m
  | DispatchFailure m => m
  end.

Inductive outcome (A : Type) := Ok (a : A) | Raise (e : exc).
Arguments Ok {A} a.
Arguments Raise {A} e.

Definition M (A : Type) : Type := pyst -> outcome A * pyst.

Definition ret {A} (a : A) : M A := fun s => (Ok a, s).
Definition bind {A B} (m : M A) (k : A -> M B) : M B :=
  fun s => match m s with
           | (Ok a, s') => k a s'
           | (Raise e, s') => (Raise e, s')
           end.
Definition raise {A} (e : exc) : M A := fun s => (Raise e, s).
Definition emit (e : event) : M unit := fun s => (Ok tt, record_event e s).
Definition modify (f : pyst -> pyst) : M unit := fun s => (Ok tt, f s).
Definition gets {A} (f : pyst -> A) : M A := fun s => (Ok (f s), s).

(** [try: body except Exception as e: handler(e)] *)
Definition try_except {A} (body : M A) (handler : exc -> M A) : M A :=
  fun s => match body s with
           | (Ok a, s') => (Ok a, s')
           | (Raise e, s') => handler e s'
           end.

Notation "x <- m ;; k" := (bind m (fun x => k))
  (at level 95, m at level 90, right associativity).
Notation "m ;;; k" := (bind m (fun _ => k))
  (at level 95, right associativity).

(** ** Tornado helpers *)

(** [str.isspace] on the code points below 256: [\t \n \v \f \r], the
    separators [\x1c]-[\x1f], the space, [\x85] and [\xa0]. *)
Definition is_space (c : ascii) : bool :=
  let n := nat_of_ascii c in
  ((9 <=? n)%nat && (n <=? 13)%nat) || ((28 <=? n)%nat && (n <=? 32)%nat) ||
  (n =? 133)%nat || (n =? 160)%nat.

Definition lstrip_list (l : list ascii) : list ascii :=
  (fix go l := match l with c :: r => if is_space c then go r else l | [] => [] end) l.

(** [str.strip()] *)
Definition strip (s : string) : string :=
  string_of_list_ascii (rev (lstrip_list (rev (lstrip_list (list_ascii_of_string s))))).

(** [RequestHandler._remove_control_chars_regex], the pattern
    [[\x00-\x08\x0e-\x1f]]. *)
Definition is_control_char (c : ascii) : bool :=
  let n := nat_of_ascii c in (n <=? 8)%nat || ((14 <=? n)%nat && (n <=? 31)%nat).

(** [_remove_control_chars_regex.sub(" ", s)] *)
Fixpoint remove_control_chars (s : string) : string :=
  match s with
  | EmptyString => EmptyString
  | String c rest =>
      String (if is_control_char c then " "%char else c) (remove_control_chars rest)
  end.

(** [RequestHandler.get_argument(name, default=...)]: the (last) value of
    the query argument, decoded, with its control characters replaced by
    spaces and then stripped ([RequestHandler._get_arguments]), or the
    default when it is absent. *)
Definition get_argument (arg : option string) (default : string) : string :=
  match arg with Some v => strip (remove_control_chars v) | None => default end.
Definition get_argument_opt (arg : option string) : option string :=
  match arg with Some v => Some (strip (remove_control_chars v)) | None => None end.

(** Truthiness of a [str] / [bytes] / [None] value. *)
Definition truthy (o : option string) : bool :=
  match o with Some EmptyString | None => false | Some _ => true end.
Definition value_of (o : option string) : string :=
  match o with Some v => v | None => EmptyString end.

(** ** [repr] of a [str] *)

(** [str.isprintable] on the code points below 256. *)
Definition repr_printable (n : N) : bool :=
  ((32 <=? n)%N && (n <=? 126)%N) || ((161 <=? n)%N && negb (n =? 173)%N).

Definition sq : ascii := "'"%char.

(** One character of [unicode_repr], [q] being the chosen quote. *)
Definition repr_char (q c : ascii) : string :=
  let n := N_of_ascii c in
  if Ascii.eqb c q || Ascii.eqb c bs then String bs (String c EmptyString)
  else if (n =? 9)%N then "\t"
  else if (n =? 10)%N then "\n"
  else if (n =? 13)%N then "\r"
  else if repr_printable n then String c EmptyString
  else "\x" +:+ hex2 n.

Fixpoint repr_body (q : ascii) (s : string) : string :=
  match s with
  | EmptyString => EmptyString
  | String c rest => repr_char q c +:+ repr_body q rest
  end.

Fixpoint has_char (c : ascii) (s : string) : bool :=
  match s with
  | EmptyString => false
  | String c' rest => Ascii.eqb c c' || has_char c rest
  end.

(** [repr(s)]: single quotes, unless [s] holds a single quote and no
    double quote. *)
Definition py_repr (s : string) : string :=
  let q := if has_char sq s && negb (has_char dq s) then dq else sq in
  String q (repr_body q s +:+ String q EmptyString).

(** ** Python's [int(str)] in base 10 *)

Definition is_digit (c : ascii) : bool :=
  let n := nat_of_ascii c in ((48 <=? n)%nat && (n <=? 57)%nat).
Definition digit_value (c : ascii) : Z := Z.of_nat (nat_of_ascii c - 48).

Inductive scan_result := ScanOk (acc : Z) (ndigits : N) (rest : string) | ScanBad.

(** The digit scan of [long_from_string_base]: digits with single
    underscores between them; [acc] is the value read so far, [ndigits]
    the number of digits, [rest] what follows the run. *)
Fixpoint scan_digits (s : string) (acc : Z) (ndigits : N) (prev_us : bool) : scan_result :=
  match s with
  | EmptyString => if prev_us then ScanBad else ScanOk acc ndigits EmptyString
  | String c rest =>
      if is_digit c then scan_digits rest (acc * 10 + digit_value c) (N.succ ndigits) false
      else if Ascii.eqb c "_"%char then
        (if prev_us then ScanBad else scan_digits rest acc ndigits true)
      else if prev_us then ScanBad else ScanOk acc ndigits (String c rest)
  end.

(** What [int(s)] does: a value, the error for an invalid literal, or the
    error for a literal over [sys.get_int_max_str_digits()] digits. *)
Inductive int_result := IntOk (z : Z) | IntInvalid | IntTooLong (ndigits : N).

Definition max_str_digits : N := 4300.

Definition int_ok (r : int_result) : bool := match r with IntOk _ => true | _ => false end.

(** [long_from_string_base] in base 10 on the text after the sign: no
    leading underscore, at least one digit, nothing after the digits (the
    trailing whitespace is already gone), then the digit limit. *)
Definition int_body (sign : Z) (body : string) : int_result :=
  match body with
  | EmptyString => IntInvalid
  | String c _ =>
      if Ascii.eqb c "_"%char then IntInvalid else
      match scan_digits body 0 0 false with
      | ScanBad => IntInvalid
      | ScanOk acc nd rest =>
          if (nd =? 0)%N then IntInvalid else
          match rest with
          | EmptyString =>
              if (max_str_digits <? nd)%N then IntTooLong nd else IntOk (sign * acc)
          | String _ _ => IntInvalid
          end
      end
  end.

(** [PyLong_FromUnicodeObject] in base 10: surrounding whitespace
    dropped, an optional sign, then the digits. *)
Definition int_parse (s : string) : int_result :=
  match strip s with
  | String c rest =>
      if Ascii.eqb c "-"%char then int_body (-1) rest
      else if Ascii.eqb c "+"%char then int_body 1 rest
      else int_body 1 (String c rest)
  | EmptyString => IntInvalid
  end.

(** [int(s)], with the messages of its two [ValueError]s; the literal is
    shown as [%.200R]. *)
Definition py_int (s : string) : M Z :=
  match int_parse s with
  | IntOk z => ret z
  | IntInvalid =>
      raise (ValueError ("invalid literal for int() with base 10: " +:+
                         substring 0 200 (py_repr s)))
  | IntTooLong nd =>
      raise (ValueError ("Exceeds the limit (4300 digits) for integer string conversion: value has "
                         +:+ pretty nd +:+
                         " digits; use sys.set_int_max_str_digits() to increase the limit"))
  end.

(** [d.get(k, default)] on a decoded JSON object; any other value has no
    attribute [get]. *)
Definition py_get (d : json) (k : string) (default : json) : M json :=
  match d with
  | JObj kvs =>
      ret (match list_find (fun kv => kv.1 = k) kvs with
           | Some (_, (_, v)) => v
           | None => default
           end)
  | _ => raise (AttributeError "object has no attribute 'get'")
  end.

(** [v == TaskStatus.PENDING] *)
Definition eq_status (v : json) (st : TaskStatus) : bool :=
  match v with JStr s => String.eqb s (status_value st) | _ => false end.

(** What a handler writes: [self.write(...)] with the default status 200,
    or [self.error(msg)], which sets status 500. *)
Inductive response := RespWrite (body : string) | RespError (msg : string).

Definition response_code (r : response) : Z :=
  match r with RespWrite _ => 200 | RespError _ => 500 end.

(** ** Collaborators outside src/ *)

(** Modelled from the spec: [RedisCache.get] (src/cache/redis.py, not
    under src/) is a keyed lookup returning the stored value or a miss. *)
Definition redis_get (key : string) : M (option string) :=
  emit (EvCacheGet key) ;;; gets (fun s => cache s !! key).

(** Modelled from the spec: [RedisCache.set] (src/cache/redis.py, not
    under src/) is best effort: when the backend refuses the write the
    failure is only logged. *)
Definition redis_set (key value : string) : M unit :=
  fail <- gets cache_write_fails ;;
  if fail then emit (EvLog ("Redis set failed, key '" +:+ key +:+ "'"))
  else emit (EvCacheSet key value) ;;; modify (fun s => set_cache (<[key:=value]> (cache s)) s).

(** The record view returned by [TaskCrud.get_results]. *)
Definition results_view (tid : string) (r : task_record) : json :=
  JObj [("task", JObj [("id", JStr tid); ("status", JStr (status_value (tr_status r)))]);
        ("result", tr_result r)].

(** Modelled from the spec: [TaskCrud.get_results] (src/db/crud.py, not
    under src/) reads the record by identifier and signals
    [TaskNotFoundError] when there is none. *)
Definition TaskCrud_get_results (tid : string) : M json :=
  emit (EvStoreRead tid) ;;;
  r <- gets (fun s => records s !! tid) ;;
  match r with
  | Some r => ret (results_view tid r)
  | None => raise (TaskNotFoundError tid)
  end.

(** ** [ResultsHandler.get] (src/server.py, lines 171-197) *)

Definition results_from_store (task_id : string) : M response :=
  db_results <- TaskCrud_get_results task_id ;;
  let json_results := dumps db_results in
  t <- py_get db_results "task" (JObj []) ;;
  st <- py_get t "status" (JStr EmptyString) ;;
  if eq_status st PENDING then
    emit (EvLog ("Status of the task '" +:+ task_id +:+ "' is 'pending', skip Redis cache saving")) ;;;
    ret (RespWrite json_results)
  else
    redis_set task_id json_results ;;;
    emit (EvLog ("Save results to Redis cache, task '" +:+ task_id +:+ "'")) ;;;
    ret (RespWrite json_results).

Definition results_error (e : exc) : M response :=
  ret (RespError ("Unexpected error at getting results: " +:+ str_exc e)).

Definition ResultsHandler_get (task_id : string) : M response :=
  try_except (
    redis_cache <- redis_get task_id ;;
    if truthy redis_cache then
      emit (EvLog ("Redis cache is available, task '" +:+ task_id +:+ "'")) ;;;
      ret (RespWrite (value_of redis_cache))
    else results_from_store task_id)
  results_error.

(** The same query when the cache lookup has come back empty: the lookup,
    then lines 184-193 under the same [try]. *)
Definition ResultsHandler_get_on_miss (task_id : string) : M response :=
  try_except (redis_get task_id ;;; results_from_store task_id) results_error.

(** Running a handler: response, or the uncaught exception, and new state. *)
Definition run {A} (m : M A) (s : pyst) : outcome A * pyst := m s.

(** ** Task creation *)

Record TaskItem := { ti_id : string; ti_status : TaskStatus }.

(** [task.as_json()] *)
Definition task_as_json (t : TaskItem) : json :=
  JObj [("id", JStr (ti_id t)); ("status", JStr (status_value (ti_status t)))].

(** Modelled from the spec: [TaskItem()] (src/server/structures/task.py,
    not under src/) allocates a new task identity with status PENDING. *)
Definition new_TaskItem : M TaskItem :=
  n <- gets next_id ;;
  modify (set_next_id (N.succ n)) ;;;
  ret {| ti_id := "T" +:+ pretty (N.succ n); ti_status := PENDING |}.

(** Modelled from the spec: [TaskCrud.create_task] (src/db/crud.py, not
    under src/) persists an initial PENDING record, or raises when the
    store refuses the write ([createTask(id) -> ok/error]). *)
Definition TaskCrud_create_task (t : TaskItem) : M unit :=
  fail <- gets create_fails ;;
  if fail then raise (DatabaseError "task record could not be created")
  else
    emit (EvCreateRecord (ti_id t)) ;;;
    modify (fun s =>
      set_records (<[ti_id t := {| tr_status := PENDING; tr_result := JNull |}]> (records s)) s).

(** Modelled from the spec: [Publisher.publish_task] (src/queue/publisher.py,
    not under src/) hands the identity and payload to the Work Queue; the
    publish may itself raise ([publish(id, payload) -> ok/error]). *)
Definition publish_task (t : TaskItem) (cases : json) : M unit :=
  emit (EvPublish (ti_id t)) ;;;
  fail <- gets publish_fails ;;
  if fail then raise (DispatchFailure "task could not be published")
  else modify (fun s => set_queue (queue s ++ [(ti_id t, cases)]) s).

Section Handlers.

(** [tornado.escape.json_decode] of a request body; [None] when it raises. *)
Variable json_decode : string -> option json.

(** The work done on a payload: [Some result] on success, [None] when the
    execution fails. *)
Variable executor : json -> option json.

(** Modelled from the spec: [TaskSpawner.run_task]
    (src/server/handlers/task_spawner.py, not under src/) runs the work in
    line and performs the terminal status transition on the store; the
    invocation may itself raise ([run(id, payload) -> ok/error]). *)
Definition TaskSpawner_run_task (t : TaskItem) (cases : json) : M unit :=
  emit (EvRunTask (ti_id t)) ;;;
  fail <- gets run_fails ;;
  if fail then raise (DispatchFailure "task could not be run")
  else
    let r := match executor cases with
             | Some out => {| tr_status := SUCCESS; tr_result := out |}
             | None => {| tr_status := ERROR; tr_result := JStr "execution failed" |}
             end in
    modify (fun s => set_records (<[ti_id t := r]> (records s)) s).

Definition json_decode_m (body : string) : M json :=
  match json_decode body with Some j => ret j | None => raise JSONDecodeError end.

(** [tornado.escape.json_encode]; the values encoded here contain no ["</"],
    so it coincides with [json.dumps]. *)
Definition json_encode (j : json) : string := dumps j.

Definition unsupported_type_msg (execution_type : string) : string :=
  "Unsupported value for parameter 'type': " +:+ execution_type +:+
  ". Supported values: 'queue', 'process'".

(** [CreateTaskHandler.post] (src/server.py, lines 90-114). *)
Definition CreateTaskHandler_post (type_arg : option string) (request_body : string)
  : M response :=
  let execution_type := get_argument type_arg "queue" in
  try_except (
    body <- json_decode_m request_body ;;
    task <- new_TaskItem ;;
    TaskCrud_create_task task ;;;
    if String.eqb execution_type "process" then
      TaskSpawner_run_task task body ;;;
      ret (RespWrite (json_encode (task_as_json task)))
    else if String.eqb execution_type "queue" then
      publish_task task body ;;;
      ret (RespWrite (json_encode (task_as_json task)))
    else ret (RespError (unsupported_type_msg execution_type)))
  (fun e => ret (RespError ("Unexpected error at task creating: " +:+ str_exc e))).

End Handlers.

(** ** Task listing *)

(** Modelled from the spec: [TaskCrud.get_task] (src/db/crud.py, not under
    src/) returns the record view of one task. *)
Definition TaskCrud_get_task (tid : string) : M json :=
  emit (EvStoreRead tid) ;;;
  r <- gets (fun s => records s !! tid) ;;
  match r with
  | Some r => ret (results_view tid r)
  | None => raise (TaskNotFoundError tid)
  end.

(** Modelled from the spec: [TaskCrud.get_tasks] (src/db/crud.py, not under
    src/) lists the task records, at most [limit] of them when given. *)
Definition TaskCrud_get_tasks (limit : option Z) : M json :=
  emit EvStoreList ;;;
  rs <- gets (fun s => map (fun kv => results_view kv.1 kv.2) (map_to_list (records s))) ;;
  ret (JArr (match limit with Some n => take (Z.to_nat n) rs | None => rs end)).

(** [ListTaskHandler.get] (src/server.py, lines 145-163). *)
Definition ListTaskHandler_get (task_id_arg limit_arg : option string) : M response :=
  let task_id := get_argument_opt task_id_arg in
  let limit := get_argument_opt limit_arg in
  try_except (
    tasks <- (if truthy task_id then TaskCrud_get_task (value_of task_id)
              else n <- (if truthy limit then z <- py_int (value_of limit) ;; ret (Some z)
                         else ret None) ;;
                   TaskCrud_get_tasks n) ;;
    ret (RespWrite (dumps tasks)))
  (fun e => ret (RespError ("Unexpected error at tasks listing: " +:+ str_exc e))).

(** ** Queue polling (src/server.py, lines 240-243) *)

(** [PeriodicCallback(callback, callback_time=1.000)]: Tornado reads
    [callback_time] in milliseconds. *)
Definition polling_callback_time_ms : Q := 1.000.

Definition periodic_interval_seconds (callback_time_ms : Q) : Q := callback_time_ms / 1000.

(** ** [CreateTaskQueueHandler.post] (src/server.py, lines 122-137) *)

Definition CreateTaskQueueHandler_post (json_decode : string -> option json)
    (request_body : string) : M response :=
  try_except (
    body <- json_decode_m json_decode request_body ;;
    task <- new_TaskItem ;;
    TaskCrud_create_task task ;;;
    publish_task task body ;;;
    ret (RespWrite (json_encode (task_as_json task))))
  (fun e => ret (RespError ("Unexpected error at task creating: " +:+ str_exc e))).

(** ** Concrete inputs *)

Definition rec_success : task_record := {| tr_status := SUCCESS; tr_result := JObj [("y", JNum 2)] |}.
Definition rec_pending : task_record := {| tr_status := PENDING; tr_result := JNull |}.

Definition mk_state (recs : gmap string task_record) (ch : gmap string string)
  (fails : bool) : pyst :=
  {| records := recs; cache := ch; queue := []; trace := []; next_id := 0;
     cache_write_fails := fails; create_fails := false; publish_fails := false;
     run_fails := false |}.

Definition st_empty : pyst := mk_state ∅ ∅ false.
Definition st_success : pyst := mk_state {[ "T1" := rec_success ]} ∅ false.
Definition st_success_cache_down : pyst := mk_state {[ "T1" := rec_success ]} ∅ true.
Definition st_pending : pyst := mk_state {[ "T1" := rec_pending ]} ∅ false.
Definition st_blank_cached : pyst :=
  mk_state {[ "T1" := rec_success ]} {[ "T1" := EmptyString ]} false.

(** A store that refuses to create records, and a broker that refuses
    publishes. *)
Definition st_store_down : pyst :=
  {| records := ∅; cache := ∅; queue := []; trace := []; next_id := 0;
     cache_write_fails := false; create_fails := true; publish_fails := false;
     run_fails := false |}.
Definition st_broker_down : pyst :=
  {| records := ∅; cache := ∅; queue := []; trace := []; next_id := 0;
     cache_write_fails := false; create_fails := false; publish_fails := true;
     run_fails := false |}.

(** A body that decodes to [{"x": 1}], one that does not decode, and an
    executor that fails. *)
Definition decode_x1 (_ : string) : option json := Some (JObj [("x", JNum 1)]).
Definition decode_fails (_ : string) : option json := None.
Definition executor_fails (_ : json) : option json := None.

(** * Properties *)

Ltac trace_mem := rewrite ?elem_of_app, ?list_elem_of_singleton; tauto.

Ltac unfold_handlers :=
  unfold run, ResultsHandler_get, results_from_store,
    results_error, redis_get, redis_set, TaskCrud_get_results, results_view, py_get,
    try_except, bind, ret, raise, emit, modify, gets,
    record_event, set_cache, set_records, set_queue, set_next_id in *; simpl in *;
  cbn [records cache queue trace next_id cache_write_fails
         create_fails publish_fails run_fails] in *.

Lemma eq_status_status_value (st st' : TaskStatus) :
  eq_status (JStr (status_value st)) st' = true <-> st = st'.
Proof. destruct st, st'; simpl; split; congruence. Qed.

(** C1: on a cache miss for a recorded task in a terminal status, a failed
    cache write is only logged: the caller gets the serialized record view
    with status 200, and nothing else changes but the trace. *)
Theorem results_cache_write_failure_logged_only (s : pyst) (tid : string) (r : task_record) :
  cache_write_fails s = true ->
  truthy (cache s !! tid) = false ->
  records s !! tid = Some r ->
  is_terminal (tr_status r) = true ->
  let '(res, s') := run (ResultsHandler_get tid) s in
  res = Ok (RespWrite (dumps (results_view tid r))) /\
  response_code (RespWrite (dumps (results_view tid r))) = 200%Z /\
  cache s' = cache s /\ records s' = records s /\
  EvLog ("Redis set failed, key '" +:+ tid +:+ "'") ∈ trace s'.
Proof.
  intros Hf Hmiss Hr Ht.
  destruct s as [recs ch q tr nid cwf cf pf rf]; unfold_handlers.
  rewrite Hmiss; simpl. rewrite Hr; simpl. rewrite Hf; simpl.
  destruct (tr_status r); try discriminate; simpl;
    repeat split; rewrite ?elem_of_app, ?list_elem_of_singleton; tauto.
Qed.

(** C2: a result query leaves every cache entry as it was, except that it
    may write the entry of the queried identifier, and only when the record
    read from the store has a terminal status; for a PENDING record on a
    cache miss it returns the record's current view and leaves the cache
    unchanged. *)
Theorem results_cache_only_terminal (s : pyst) (tid : string) :
  let '(res, s') := run (ResultsHandler_get tid) s in
  (forall (k v : string), cache s' !! k = Some v ->
     cache s !! k = Some v \/
     (k = tid /\ exists r, records s !! tid = Some r /\ is_terminal (tr_status r) = true)) /\
  (forall r, records s !! tid = Some r -> tr_status r = PENDING ->
     truthy (cache s !! tid) = false ->
     res = Ok (RespWrite (dumps (results_view tid r))) /\ cache s' = cache s).
Proof.
  destruct s as [recs ch q tr nid cwf cf pf rf]; unfold_handlers.
  destruct (truthy (ch !! tid)) eqn:Hc; simpl.
  - split; [by left|]. intros; congruence.
  - destruct (recs !! tid) as [r|] eqn:Hr; simpl.
    + destruct (tr_status r) eqn:Hs; simpl.
      * split; [by left|]. intros r' [= <-] _ _. rewrite Hs. split; reflexivity.
      * destruct cwf; simpl.
        -- split; [by left|]. intros r' [= <-]. congruence.
        -- split; [|intros r' [= <-]; congruence].
           intros k v Hk. apply lookup_insert_Some in Hk as [[-> _]|[_ Hk]].
           ++ right. split; [reflexivity|]. exists r. by rewrite Hs.
           ++ by left.
      * destruct cwf; simpl.
        -- split; [by left|]. intros r' [= <-]. congruence.
        -- split; [|intros r' [= <-]; congruence].
           intros k v Hk. apply lookup_insert_Some in Hk as [[-> _]|[_ Hk]].
           ++ right. split; [reflexivity|]. exists r. by rewrite Hs.
           ++ by left.
    + split; [by left|]. intros; congruence.
Qed.

(** A query on a non-empty cached value answers with that value and only
    records the lookup and the log line. *)
Lemma results_cache_hit (s : pyst) (tid v : string) :
  cache s !! tid = Some v -> v <> EmptyString ->
  run (ResultsHandler_get tid) s =
  (Ok (RespWrite v),
   record_event (EvLog ("Redis cache is available, task '" +:+ tid +:+ "'"))
     (record_event (EvCacheGet tid) s)).
Proof.
  intros Hc Hv. destruct s as [recs ch q tr nid cwf cf pf rf]; unfold_handlers.
  rewrite Hc. destruct v as [|c v']; [congruence|]. reflexivity.
Qed.

Lemma dumps_results_view_nonempty (tid : string) (r : task_record) :
  dumps (results_view tid r) <> EmptyString.
Proof. simpl. discriminate. Qed.

(** C3 (as the code has it): a query for an identifier with no record and
    no usable cached value ends in the handler's catch-all: status 500 and
    the generic message prefix, the same envelope as any other failure;
    nothing is written to the cache. *)
Theorem results_not_found_generic_error (s : pyst) (tid : string) :
  records s !! tid = None ->
  truthy (cache s !! tid) = false ->
  run (ResultsHandler_get tid) s =
  (Ok (RespError ("Unexpected error at getting results: " +:+ str_exc (TaskNotFoundError tid))),
   record_event (EvStoreRead tid) (record_event (EvCacheGet tid) s)) /\
  response_code (RespError ("Unexpected error at getting results: " +:+
                            str_exc (TaskNotFoundError tid))) = 500%Z.
Proof.
  intros Hr Hc. destruct s as [recs ch q tr nid cwf cf pf rf]; unfold_handlers.
  rewrite Hc; simpl. rewrite Hr; simpl. split; reflexivity.
Qed.

Lemma trace_record_event (e : event) (s : pyst) :
  trace (record_event e s) = (trace s ++ [e])%list.
Proof. reflexivity. Qed.

(** The first query for a recorded task in a terminal status, on a cache
    miss with a working cache: it reads the store, caches the serialized
    view and returns it. *)
Lemma results_first_terminal (s : pyst) (tid : string) (r : task_record) :
  records s !! tid = Some r -> is_terminal (tr_status r) = true ->
  truthy (cache s !! tid) = false -> cache_write_fails s = false ->
  run (ResultsHandler_get tid) s =
  (Ok (RespWrite (dumps (results_view tid r))),
   record_event (EvLog ("Save results to Redis cache, task '" +:+ tid +:+ "'"))
     (record_event (EvCacheSet tid (dumps (results_view tid r)))
        (set_cache (<[tid := dumps (results_view tid r)]> (cache s))
           (record_event (EvStoreRead tid) (record_event (EvCacheGet tid) s))))).
Proof.
  intros Hr Ht Hc Hf.
  destruct s as [recs ch q tr nid cwf cf pf rf]; unfold_handlers.
  rewrite Hc; simpl. rewrite Hr; simpl. rewrite Hf.
  destruct (tr_status r); try discriminate; reflexivity.
Qed.

Lemma results_first_terminal_cached (s : pyst) (tid : string) (r : task_record) :
  cache (record_event (EvLog ("Save results to Redis cache, task '" +:+ tid +:+ "'"))
     (record_event (EvCacheSet tid (dumps (results_view tid r)))
        (set_cache (<[tid := dumps (results_view tid r)]> (cache s))
           (record_event (EvStoreRead tid) (record_event (EvCacheGet tid) s))))) !! tid =
  Some (dumps (results_view tid r)).
Proof.
  destruct s; unfold record_event, set_cache; cbn [cache]. apply lookup_insert_eq.
Qed.

(** C4 (as the code has it): a query whose cached value is non-empty is
    answered from the cache, with no store read and no cache write; every
    value the handler caches is a non-empty serialization, so for a task in
    a terminal status the first query on a cache miss populates the cache
    and the next one is served from it without reading the store. *)
Theorem results_served_from_cache (s : pyst) (tid : string) :
  (forall v, cache s !! tid = Some v -> v <> EmptyString ->
     let '(res, s') := run (ResultsHandler_get tid) s in
     res = Ok (RespWrite v) /\ records s' = records s /\ cache s' = cache s /\
     trace s' = (trace s ++ [EvCacheGet tid;
                             EvLog ("Redis cache is available, task '" +:+ tid +:+ "'")])%list) /\
  (forall r, records s !! tid = Some r -> is_terminal (tr_status r) = true ->
     truthy (cache s !! tid) = false -> cache_write_fails s = false ->
     let '(res1, s1) := run (ResultsHandler_get tid) s in
     let '(res2, s2) := run (ResultsHandler_get tid) s1 in
     res1 = Ok (RespWrite (dumps (results_view tid r))) /\
     cache s1 = <[tid := dumps (results_view tid r)]> (cache s) /\
     res2 = res1 /\ records s2 = records s1 /\ cache s2 = cache s1 /\
     trace s2 = (trace s1 ++ [EvCacheGet tid;
                              EvLog ("Redis cache is available, task '" +:+ tid +:+ "'")])%list).
Proof.
  split.
  - intros v Hc Hv. rewrite (results_cache_hit s tid v Hc Hv).
    destruct s; unfold record_event; simpl. rewrite <- app_assoc. repeat split.
  - intros r Hr Ht Hc Hf.
    rewrite (results_first_terminal s tid r Hr Ht Hc Hf).
    rewrite (results_cache_hit _ tid _ (results_first_terminal_cached s tid r)
               (dumps_results_view_nonempty tid r)).
    unfold record_event at 1 2; cbn [records cache trace].
    split; [reflexivity|]. split; [reflexivity|]. split; [reflexivity|].
    split; [reflexivity|]. split; [reflexivity|].
    rewrite !trace_record_event, <- !app_assoc. reflexivity.
Qed.

(** C9: a cached empty value is treated like a miss: the query runs
    exactly as the cache-miss path does, answers as if the entry were
    absent, and reads the Task Record Store. *)
Theorem results_empty_cached_value_is_miss (s : pyst) (tid : string) :
  cache s !! tid = Some EmptyString ->
  run (ResultsHandler_get tid) s = run (ResultsHandler_get_on_miss tid) s /\
  fst (run (ResultsHandler_get tid) s) =
    fst (run (ResultsHandler_get tid) (set_cache (delete tid (cache s)) s)) /\
  EvStoreRead tid ∈ trace (snd (run (ResultsHandler_get tid) s)).
Proof.
  intros Hc. unfold ResultsHandler_get_on_miss.
  destruct s as [recs ch q tr nid cwf cf pf rf]; unfold_handlers.
  rewrite Hc, lookup_delete_eq; simpl.
  split; [reflexivity|].
  destruct (recs !! tid) as [r|]; simpl.
  - destruct (tr_status r), cwf; simpl; split; (reflexivity || trace_mem).
  - split; [reflexivity|trace_mem].
Qed.

Ltac unfold_create :=
  unfold run, CreateTaskHandler_post, json_decode_m, new_TaskItem, TaskCrud_create_task,
    TaskSpawner_run_task, publish_task, json_encode,
    try_except, bind, ret, raise, emit, modify, gets,
    record_event, set_cache, set_records, set_queue, set_next_id in *; simpl in *.


(** C6: for a creation request whose body decodes and whose mode is
    'queue' or 'process', no dispatch (synchronous run or publish) happens
    unless the PENDING record has been created first.  If the store
    refuses the record, the call fails with nothing dispatched and the
    store unchanged.  Otherwise the record is created, then comes the one
    dispatch, and when the call returns the store holds a record for the
    new identifier, still PENDING in 'queue' mode, so a result query right
    after finds it; the call answers with the new task unless the dispatch
    itself raised, which gives the error envelope. *)
Theorem create_record_before_dispatch (json_decode : string -> option json)
    (executor : json -> option json) (s : pyst) (type_arg : option string)
    (request_body : string) (b : json) :
  json_decode request_body = Some b ->
  get_argument type_arg "queue" = "queue" \/ get_argument type_arg "queue" = "process" ->
  let '(res, s') := run (CreateTaskHandler_post json_decode executor type_arg request_body) s in
  (create_fails s = true ->
     trace s' = trace s /\ records s' = records s /\ queue s' = queue s /\
     exists msg, res = Ok (RespError msg)) /\
  (create_fails s = false ->
     exists tid r,
       records s' !! tid = Some r /\
       (get_argument type_arg "queue" = "queue" ->
          trace s' = (trace s ++ [EvCreateRecord tid; EvPublish tid])%list /\
          tr_status r = PENDING /\
          (publish_fails s = false ->
             res = Ok (RespWrite (dumps (task_as_json {| ti_id := tid; ti_status := PENDING |})))) /\
          (publish_fails s = true -> exists msg, res = Ok (RespError msg))) /\
       (get_argument type_arg "queue" = "process" ->
          trace s' = (trace s ++ [EvCreateRecord tid; EvRunTask tid])%list /\
          (run_fails s = false ->
             res = Ok (RespWrite (dumps (task_as_json {| ti_id := tid; ti_status := PENDING |})))) /\
          (run_fails s = true -> exists msg, res = Ok (RespError msg)))).
Proof.
  intros Hb Hm.
  destruct s as [recs ch q tr nid cwf cf pf rf]; unfold_create.
  rewrite Hb; simpl.
  destruct cf; simpl.
  - split; intros Hcf; [|discriminate Hcf]. repeat split. eexists; reflexivity.
  - destruct Hm as [Hm|Hm]; rewrite Hm; simpl.
    + destruct pf; simpl; split; intros Hcf; try discriminate Hcf.
      * eexists _, _; split; [apply lookup_insert_eq|].
        split; [|discriminate]. intros _. rewrite <- app_assoc.
        split; [reflexivity|]. split; [reflexivity|].
        split; intros; (discriminate || (eexists; reflexivity)).
      * eexists _, _; split; [apply lookup_insert_eq|].
        split; [|discriminate]. intros _. rewrite <- app_assoc.
        split; [reflexivity|]. split; [reflexivity|].
        split; intros; (discriminate || reflexivity).
    + destruct rf; simpl; split; intros Hcf; try discriminate Hcf.
      * eexists _, _; split; [apply lookup_insert_eq|].
        split; [discriminate|]. intros _. rewrite <- app_assoc.
        split; [reflexivity|]. split; intros; (discriminate || (eexists; reflexivity)).
      * eexists _, _; split; [apply lookup_insert_eq|].
        split; [discriminate|]. intros _. rewrite <- app_assoc.
        split; [reflexivity|]. split; intros; (discriminate || reflexivity).
Qed.

(** C8: a creation request whose body does not decode is answered with
    the error envelope and leaves the whole state as it was: no record, no
    publish, no synchronous run. *)
Theorem create_invalid_body_no_effect (json_decode : string -> option json)
    (executor : json -> option json) (s : pyst) (type_arg : option string)
    (request_body : string) :
  json_decode request_body = None ->
  run (CreateTaskHandler_post json_decode executor type_arg request_body) s =
  (Ok (RespError ("Unexpected error at task creating: " +:+ str_exc JSONDecodeError)), s).
Proof.
  intros Hb. destruct s; unfold_create. rewrite Hb. reflexivity.
Qed.

Ltac unfold_list :=
  unfold run, ListTaskHandler_get, py_int, TaskCrud_get_task, TaskCrud_get_tasks,
    try_except, bind, ret, raise, emit, modify, gets, record_event in *; simpl in *.

(** C10 (as the code has it): with no (or an empty) task identifier, a
    limit that is non-empty after Tornado's clean-up and that [int()]
    rejects gives the 500 error envelope; an empty limit counts as no
    limit; with a non-empty task identifier the limit is ignored. *)
Theorem list_limit_handling (s : pyst) :
  (forall (tid_arg : option string) (l : string),
     truthy (get_argument_opt tid_arg) = false ->
     get_argument (Some l) EmptyString <> EmptyString ->
     int_ok (int_parse (get_argument (Some l) EmptyString)) = false ->
     exists msg,
       fst (run (ListTaskHandler_get tid_arg (Some l)) s) =
         Ok (RespError ("Unexpected error at tasks listing: " +:+ msg)) /\
       response_code (RespError ("Unexpected error at tasks listing: " +:+ msg)) = 500%Z) /\
  (forall (tid_arg l1 l2 : option string),
     truthy (get_argument_opt tid_arg) = true ->
     run (ListTaskHandler_get tid_arg l1) s = run (ListTaskHandler_get tid_arg l2) s) /\
  (forall (tid_arg : option string) (l : string),
     get_argument (Some l) EmptyString = EmptyString ->
     run (ListTaskHandler_get tid_arg (Some l)) s = run (ListTaskHandler_get tid_arg None) s).
Proof.
  repeat split.
  - intros tid_arg l Ht Hl Hi. unfold_list. rewrite Ht.
    destruct (strip (remove_control_chars l)) as [|c r] eqn:E; [congruence|]. simpl.
    destruct (int_parse (String c r)); try discriminate Hi;
      simpl; eexists; split; reflexivity.
  - intros tid_arg l1 l2 Ht. unfold_list. rewrite Ht. reflexivity.
  - intros tid_arg l Hl. unfold_list. rewrite Hl. reflexivity.
Qed.

(** C7 (as the code has it): the queue is polled every
    [callback_time] = 1.000 milliseconds, i.e. every thousandth of a
    second, far below the order of one second. *)
Theorem polling_interval_one_millisecond :
  (periodic_interval_seconds polling_callback_time_ms == 1 # 1000)%Q /\
  (periodic_interval_seconds polling_callback_time_ms < 1 # 10)%Q.
Proof. split; reflexivity. Qed.

(** * Witnesses and counterexamples *)

Lemma results_cache_write_failure_logged_only_witness :
  let '(res, s') := run (ResultsHandler_get "T1") st_success_cache_down in
  res = Ok (RespWrite (dumps (results_view "T1" rec_success))) /\
  response_code (RespWrite (dumps (results_view "T1" rec_success))) = 200%Z /\
  cache s' = cache st_success_cache_down /\ records s' = records st_success_cache_down /\
  EvLog ("Redis set failed, key '" +:+ "T1" +:+ "'") ∈ trace s'.
Proof.
  exact (results_cache_write_failure_logged_only st_success_cache_down "T1" rec_success
           eq_refl eq_refl eq_refl eq_refl).
Defined.

Lemma results_cache_only_terminal_witness :
  run (ResultsHandler_get "T1") st_pending =
    (Ok (RespWrite (dumps (results_view "T1" rec_pending))), snd (run (ResultsHandler_get "T1") st_pending)) /\
  cache (snd (run (ResultsHandler_get "T1") st_pending)) = cache st_pending.
Proof.
  pose proof (results_cache_only_terminal st_pending "T1") as H.
  destruct (run (ResultsHandler_get "T1") st_pending) as [res s'] eqn:E.
  destruct H as [_ H]. destruct (H rec_pending eq_refl eq_refl eq_refl) as [-> Hc].
  split; [reflexivity|exact Hc].
Defined.

Lemma results_not_found_counterexample :
  fst (run (ResultsHandler_get "T404") st_empty) =
    Ok (RespError "Unexpected error at getting results: Task 'T404' not found") /\
  response_code (RespError "Unexpected error at getting results: Task 'T404' not found") = 500%Z.
Proof. split; reflexivity. Qed.

Lemma results_not_found_generic_error_witness :
  run (ResultsHandler_get "T404") st_empty =
  (Ok (RespError ("Unexpected error at getting results: " +:+ str_exc (TaskNotFoundError "T404"))),
   record_event (EvStoreRead "T404") (record_event (EvCacheGet "T404") st_empty)) /\
  response_code (RespError ("Unexpected error at getting results: " +:+
                            str_exc (TaskNotFoundError "T404"))) = 500%Z.
Proof. exact (results_not_found_generic_error st_empty "T404" eq_refl eq_refl). Defined.

Lemma results_served_from_cache_counterexample :
  cache st_blank_cached !! "T1" = Some EmptyString /\
  EvStoreRead "T1" ∈ trace (snd (run (ResultsHandler_get "T1") st_blank_cached)) /\
  cache (snd (run (ResultsHandler_get "T1") st_blank_cached)) <> cache st_blank_cached.
Proof.
  split; [reflexivity|]. split.
  - apply list_elem_of_In. vm_compute. right. left. reflexivity.
  - vm_compute. discriminate.
Qed.

Lemma results_served_from_cache_witness :
  let '(res1, s1) := run (ResultsHandler_get "T1") st_success in
  let '(res2, s2) := run (ResultsHandler_get "T1") s1 in
  res1 = Ok (RespWrite (dumps (results_view "T1" rec_success))) /\
  cache s1 = <[ "T1" := dumps (results_view "T1" rec_success)]> (cache st_success) /\
  res2 = res1 /\ records s2 = records s1 /\ cache s2 = cache s1 /\
  trace s2 = (trace s1 ++ [EvCacheGet "T1";
                           EvLog ("Redis cache is available, task '" +:+ "T1" +:+ "'")])%list.
Proof.
  exact (proj2 (results_served_from_cache st_success "T1") rec_success
           eq_refl eq_refl eq_refl eq_refl).
Defined.

Lemma results_empty_cached_value_is_miss_witness :
  run (ResultsHandler_get "T1") st_blank_cached = run (ResultsHandler_get_on_miss "T1") st_blank_cached /\
  fst (run (ResultsHandler_get "T1") st_blank_cached) =
    fst (run (ResultsHandler_get "T1") (set_cache (delete "T1" (cache st_blank_cached)) st_blank_cached)) /\
  EvStoreRead "T1" ∈ trace (snd (run (ResultsHandler_get "T1") st_blank_cached)).
Proof. exact (results_empty_cached_value_is_miss st_blank_cached "T1" eq_refl). Defined.



Lemma create_record_before_dispatch_witness :
  let '(res, s') := run (CreateTaskHandler_post decode_x1 executor_fails
                           (Some (String (ascii_of_nat 1) "queue")) "{}") st_broker_down in
  (create_fails st_broker_down = true ->
     trace s' = trace st_broker_down /\ records s' = records st_broker_down /\
     queue s' = queue st_broker_down /\ exists msg, res = Ok (RespError msg)) /\
  (create_fails st_broker_down = false ->
     exists tid r,
       records s' !! tid = Some r /\
       (get_argument (Some (String (ascii_of_nat 1) "queue")) "queue" = "queue" ->
          trace s' = (trace st_broker_down ++ [EvCreateRecord tid; EvPublish tid])%list /\
          tr_status r = PENDING /\
          (publish_fails st_broker_down = false ->
             res = Ok (RespWrite (dumps (task_as_json {| ti_id := tid; ti_status := PENDING |})))) /\
          (publish_fails st_broker_down = true -> exists msg, res = Ok (RespError msg))) /\
       (get_argument (Some (String (ascii_of_nat 1) "queue")) "queue" = "process" ->
          trace s' = (trace st_broker_down ++ [EvCreateRecord tid; EvRunTask tid])%list /\
          (run_fails st_broker_down = false ->
             res = Ok (RespWrite (dumps (task_as_json {| ti_id := tid; ti_status := PENDING |})))) /\
          (run_fails st_broker_down = true -> exists msg, res = Ok (RespError msg)))).
Proof.
  exact (create_record_before_dispatch decode_x1 executor_fails st_broker_down
           (Some (String (ascii_of_nat 1) "queue")) "{}" _ eq_refl (or_introl eq_refl)).
Defined.

Lemma create_invalid_body_no_effect_witness :
  run (CreateTaskHandler_post decode_fails executor_fails (Some "queue") "not json") st_success =
  (Ok (RespError ("Unexpected error at task creating: " +:+ str_exc JSONDecodeError)), st_success).
Proof. exact (create_invalid_body_no_effect decode_fails executor_fails st_success _ _ eq_refl). Defined.

Lemma list_limit_handling_counterexample :
  int_parse (get_argument (Some EmptyString) EmptyString) = IntInvalid /\
  fst (run (ListTaskHandler_get None (Some EmptyString)) st_empty) = Ok (RespWrite "[]").
Proof. split; reflexivity. Qed.

Lemma list_limit_handling_witness :
  (exists msg,
     fst (run (ListTaskHandler_get None (Some "abc")) st_empty) =
       Ok (RespError ("Unexpected error at tasks listing: " +:+ msg)) /\
     response_code (RespError ("Unexpected error at tasks listing: " +:+ msg)) = 500%Z) /\
  run (ListTaskHandler_get (Some "T1") (Some "abc")) st_success =
    run (ListTaskHandler_get (Some "T1") None) st_success /\
  run (ListTaskHandler_get None (Some " ")) st_success =
    run (ListTaskHandler_get None None) st_success.
Proof.
  split; [|split].
  - exact (proj1 (list_limit_handling st_empty) None "abc" eq_refl ltac:(discriminate) eq_refl).
  - exact (proj1 (proj2 (list_limit_handling st_success)) (Some "T1") (Some "abc") None eq_refl).
  - exact (proj2 (proj2 (list_limit_handling st_success)) None " " eq_refl).
Defined.

(** * Further properties of the handlers *)

(** [CreateTaskQueueHandler.post] does what [CreateTaskHandler.post] does
    with the default mode: same response, same effects, for every body. *)
Theorem create_queue_handler_is_queue_mode (json_decode : string -> option json)
    (executor : json -> option json) (s : pyst) (type_arg : option string)
    (request_body : string) :
  get_argument type_arg "queue" = "queue" ->
  run (CreateTaskQueueHandler_post json_decode request_body) s =
  run (CreateTaskHandler_post json_decode executor type_arg request_body) s.
Proof.
  intros Hq. unfold CreateTaskQueueHandler_post.
  destruct s as [recs ch q tr nid cwf cf pf rf]; unfold_create.
  rewrite Hq. destruct (json_decode request_body), cf, pf; reflexivity.
Qed.

Lemma create_queue_handler_is_queue_mode_witness :
  run (CreateTaskQueueHandler_post decode_x1 "{}") st_empty =
  run (CreateTaskHandler_post decode_x1 executor_fails
         (Some (String (ascii_of_nat 1) " queue ")) "{}") st_empty.
Proof.
  exact (create_queue_handler_is_queue_mode decode_x1 executor_fails st_empty
           (Some (String (ascii_of_nat 1) " queue ")) "{}" eq_refl).
Defined.

(** A creation request never touches the Result Cache, and the Work Queue
    changes only in 'queue' mode with a decodable body, by exactly one
    entry carrying the new identifier and the decoded body. *)
Theorem create_cache_untouched_queue_append (json_decode : string -> option json)
    (executor : json -> option json) (s : pyst) (type_arg : option string)
    (request_body : string) :
  let '(res, s') := run (CreateTaskHandler_post json_decode executor type_arg request_body) s in
  cache s' = cache s /\
  (queue s' = queue s \/
   (get_argument type_arg "queue" = "queue" /\
    exists tid b, json_decode request_body = Some b /\
      queue s' = (queue s ++ [(tid, b)])%list /\
      res = Ok (RespWrite (dumps (task_as_json {| ti_id := tid; ti_status := PENDING |}))))).
Proof.
  destruct s as [recs ch q tr nid cwf cf pf rf]; unfold_create.
  destruct (json_decode request_body) as [b|] eqn:Hb; simpl; [|split; [reflexivity|by left]].
  destruct cf; simpl; [split; [reflexivity|by left]|].
  destruct (String.eqb (get_argument type_arg "queue") "process") eqn:Hp; simpl.
  { destruct rf; simpl; split; [reflexivity|by left| reflexivity|by left]. }
  destruct (String.eqb (get_argument type_arg "queue") "queue") eqn:Hq; simpl;
    [|split; [reflexivity|by left]].
  destruct pf; simpl; [split; [reflexivity|by left]|].
  split; [reflexivity|right]. apply String.eqb_eq in Hq.
  split; [exact Hq|]. eexists _, b. repeat split.
Qed.

(** A result query never changes the Task Record Store or the Work Queue;
    if it changes the cache at all, it stores under the queried identifier
    exactly the body it returns. *)
Theorem results_frame (s : pyst) (tid : string) :
  let '(res, s') := run (ResultsHandler_get tid) s in
  records s' = records s /\ queue s' = queue s /\
  (cache s' = cache s \/
   exists body, res = Ok (RespWrite body) /\ cache s' = <[tid := body]> (cache s)).
Proof.
  destruct s as [recs ch q tr nid cwf cf pf rf]; unfold_handlers.
  destruct (truthy (ch !! tid)); simpl; [repeat split; by left|].
  destruct (recs !! tid) as [r|]; simpl; [|repeat split; by left].
  destruct (tr_status r), cwf; simpl; repeat split; try by left.
  all: right; eexists; split; reflexivity.
Qed.

(** Repeating a result query gives the same response as the first one,
    whatever the state: a pending or missing task is read again, a
    terminal one is answered from the value the first query cached. *)
Theorem results_idempotent (s : pyst) (tid : string) :
  fst (run (ResultsHandler_get tid) (snd (run (ResultsHandler_get tid) s))) =
  fst (run (ResultsHandler_get tid) s).
Proof.
  destruct (truthy (cache s !! tid)) eqn:Hc.
  - destruct (cache s !! tid) as [v|] eqn:Hv; [|discriminate].
    assert (Hne : v <> EmptyString) by (intros ->; discriminate).
    rewrite (results_cache_hit s tid v Hv Hne).
    rewrite (results_cache_hit _ tid v); [reflexivity| |exact Hne].
    destruct s; exact Hv.
  - destruct (records s !! tid) as [r|] eqn:Hr.
    + destruct (is_terminal (tr_status r) && negb (cache_write_fails s)) eqn:Ht.
      * apply andb_true_iff in Ht as [Ht Hf]. apply negb_true_iff in Hf.
        rewrite (results_first_terminal s tid r Hr Ht Hc Hf). cbn [fst snd].
        rewrite (results_cache_hit _ tid _ (results_first_terminal_cached s tid r)
                   (dumps_results_view_nonempty tid r)).
        reflexivity.
      * destruct s as [recs ch q tr nid cwf cf pf rf]; unfold_handlers.
        rewrite Hc; simpl. rewrite Hr; simpl.
        destruct (tr_status r) eqn:Hs, cwf; simpl in *; try discriminate;
          rewrite ?Hc; simpl; rewrite ?Hr; simpl; rewrite ?Hs; reflexivity.
    + destruct s as [recs ch q tr nid cwf cf pf rf]; unfold_handlers.
      rewrite Hc; simpl. rewrite Hr; simpl. rewrite Hc; simpl. rewrite Hr. reflexivity.
Qed.

(** A listing request changes neither the Task Record Store, nor the Result
    Cache, nor the Work Queue. *)
Theorem list_frame (s : pyst) (tid_arg limit_arg : option string) :
  let '(res, s') := run (ListTaskHandler_get tid_arg limit_arg) s in
  records s' = records s /\ cache s' = cache s /\ queue s' = queue s.
Proof.
  destruct s as [recs ch q tr nid cwf cf pf rf]; unfold_list.
  destruct (truthy (get_argument_opt tid_arg)); simpl.
  - destruct (recs !! value_of (get_argument_opt tid_arg)); simpl; repeat split.
  - destruct (truthy (get_argument_opt limit_arg)); simpl; [|repeat split].
    destruct (int_parse (value_of (get_argument_opt limit_arg))); simpl; repeat split.
Qed.

(** A task identifier that Tornado's clean-up (control characters to
    spaces, then stripping) leaves empty is treated as no identifier: the
    request lists tasks. *)
Theorem list_blank_task_id_lists (s : pyst) (t : string) (limit_arg : option string) :
  get_argument (Some t) EmptyString = EmptyString ->
  run (ListTaskHandler_get (Some t) limit_arg) s = run (ListTaskHandler_get None limit_arg) s.
Proof. intros Ht. unfold_list. rewrite Ht. reflexivity. Qed.

Lemma list_blank_task_id_lists_witness :
  run (ListTaskHandler_get (Some (String (ascii_of_nat 1) " ")) (Some "1")) st_success =
  run (ListTaskHandler_get None (Some "1")) st_success.
Proof.
  exact (list_blank_task_id_lists st_success (String (ascii_of_nat 1) " ") (Some "1") eq_refl).
Defined.

(** *** [int] on the decimal [str] of an integer *)

Lemma digit_of_pretty_N_char (x : N) :
  is_digit (pretty_N_char (x `mod` 10)) = true /\
  digit_value (pretty_N_char (x `mod` 10)) = Z.of_N (x `mod` 10)%N.
Proof.
  assert (Hm : (x `mod` 10 < 10)%N) by (apply N.mod_lt; discriminate).
  assert (Hcase : (x `mod` 10 = 0 \/ x `mod` 10 = 1 \/ x `mod` 10 = 2 \/ x `mod` 10 = 3 \/
    x `mod` 10 = 4 \/ x `mod` 10 = 5 \/ x `mod` 10 = 6 \/ x `mod` 10 = 7 \/
    x `mod` 10 = 8 \/ x `mod` 10 = 9)%N)
    by (generalize dependent (x `mod` 10)%N; intros y Hy; lia).
  repeat destruct Hcase as [Hcase|Hcase]; rewrite Hcase; split; reflexivity.
Qed.

(** Scanning the decimal digits of [x > 0] put in front of [s]: the value
    and the digit count grow by [x] and by its number of digits [k]. *)
Lemma scan_digits_pretty_N_go (x : N) (s : string) (acc : Z) (nd : N) (pu : bool) :
  (0 < x)%N ->
  exists k : nat,
    scan_digits (pretty_N_go x s) acc nd pu =
      scan_digits s (acc * 10 ^ Z.of_nat k + Z.of_N x) (nd + N.of_nat k) false /\
    String.length (pretty_N_go x s) = (k + String.length s)%nat.
Proof.
  revert s acc nd pu. induction (N.lt_wf_0 x) as [x _ IH]; intros s acc nd pu Hx.
  rewrite pretty_N_go_step by exact Hx.
  assert (Hd : (Z.of_N x = Z.of_N (x `div` 10)%N * 10 + Z.of_N (x `mod` 10)%N)%Z).
  { rewrite (N.div_mod x 10) at 1 by discriminate. lia. }
  destruct (digit_of_pretty_N_char x) as [Hc1 Hc2].
  destruct (decide (x `div` 10 = 0)%N) as [Hz|Hz].
  - exists 1%nat. rewrite Hz, pretty_N_go_0. simpl. rewrite Hc1, Hc2. split; [|reflexivity].
    rewrite Hd, Hz. f_equal; lia.
  - destruct (IH (x `div` 10)%N) with (s := String (pretty_N_char (x `mod` 10)) s)
      (acc := acc) (nd := nd) (pu := pu) as (k & Hk & Hl).
    + apply N.div_lt; [exact Hx|reflexivity].
    + clear -Hz. generalize dependent (x `div` 10)%N. intros y Hy. lia.
    + exists (S k). rewrite Hk, Hl. simpl. rewrite Hc1, Hc2. split; [|lia].
      f_equal; [|lia]. rewrite Hd. rewrite Nat2Z.inj_succ, Z.pow_succ_r by lia. lia.
Qed.

(** [x < 10 ^ n] has at most [n] decimal digits. *)
Lemma pretty_N_go_length (n : nat) (x : N) (s : string) :
  (x < 10 ^ N.of_nat n)%N -> (String.length (pretty_N_go x s) <= n + String.length s)%nat.
Proof.
  revert x s. induction n as [|n IH]; intros x s Hx.
  - assert (x = 0)%N as -> by (simpl in Hx; lia). rewrite pretty_N_go_0. lia.
  - destruct (decide (x = 0)%N) as [->|Hz]; [rewrite pretty_N_go_0; lia|].
    rewrite pretty_N_go_step by lia.
    assert (Hlt : (x `div` 10 < 10 ^ N.of_nat n)%N).
    { apply N.Div0.div_lt_upper_bound.
      rewrite Nat2N.inj_succ, N.pow_succ_r' in Hx. exact Hx. }
    specialize (IH (x `div` 10)%N (String (pretty_N_char (x `mod` 10)) s) Hlt).
    simpl String.length in IH. lia.
Qed.

Lemma pretty_N_go_digits (x : N) (s : string) :
  Forall (fun c => is_digit c = true) (list_ascii_of_string s) ->
  Forall (fun c => is_digit c = true) (list_ascii_of_string (pretty_N_go x s)).
Proof.
  revert s. induction (N.lt_wf_0 x) as [x _ IH]; intros s Hs.
  destruct (decide (x = 0)%N) as [->|Hx]; [by rewrite pretty_N_go_0|].
  rewrite pretty_N_go_step by lia. apply IH; [apply N.div_lt; lia|].
  simpl. constructor; [|exact Hs]. apply digit_of_pretty_N_char.
Qed.

Lemma pretty_pos_shape (p : positive) :
  exists c rest, pretty_N_go (Npos p) EmptyString = String c rest /\
    Forall (fun c => is_digit c = true) (list_ascii_of_string (String c rest)).
Proof.
  pose proof (pretty_N_go_digits (Npos p) EmptyString ltac:(constructor)) as H.
  destruct (pretty_N_go (Npos p) EmptyString) as [|c rest] eqn:E.
  - exfalso.
    destruct (scan_digits_pretty_N_go (Npos p) EmptyString 0 0 false) as (k & Hk & _); [lia|].
    rewrite E in Hk. simpl in Hk. injection Hk. lia.
  - exists c, rest. split; [reflexivity|exact H].
Qed.

Lemma lstrip_list_no_space (l : list ascii) :
  Forall (fun c => is_space c = false) l -> lstrip_list l = l.
Proof. intros H. destruct H as [|c l Hc _]; [reflexivity|]. simpl. rewrite Hc. reflexivity. Qed.

Lemma strip_no_space (s : string) :
  Forall (fun c => is_space c = false) (list_ascii_of_string s) -> strip s = s.
Proof.
  intros H. unfold strip. rewrite (lstrip_list_no_space _ H).
  rewrite lstrip_list_no_space by (apply Forall_rev; exact H).
  rewrite rev_involutive. apply string_of_list_ascii_of_string.
Qed.

Lemma remove_control_chars_none (s : string) :
  Forall (fun c => is_control_char c = false) (list_ascii_of_string s) ->
  remove_control_chars s = s.
Proof.
  induction s as [|c s IH]; intros H; [reflexivity|].
  inversion H as [|? ? Hc Hs]; subst. simpl. rewrite Hc, (IH Hs). reflexivity.
Qed.

(** The characters of [str(z)]: digits and the minus sign. *)
Lemma pretty_Z_chars (P : ascii -> Prop) (z : Z) :
  (forall c, is_digit c = true -> P c) -> P "-"%char ->
  Forall P (list_ascii_of_string (pretty z)).
Proof.
  intros Hd Hm. destruct z as [|p|p].
  - constructor; [apply Hd; reflexivity|constructor].
  - unfold pretty, pretty_Z, pretty_positive, pretty, pretty_N.
    rewrite decide_False by discriminate.
    destruct (pretty_pos_shape p) as (c & rest & -> & Hall).
    eapply Forall_impl; [exact Hall|exact Hd].
  - unfold pretty, pretty_Z, pretty_positive, pretty, pretty_N.
    rewrite decide_False by discriminate.
    destruct (pretty_pos_shape p) as (c & rest & -> & Hall).
    simpl. constructor; [exact Hm|].
    eapply Forall_impl; [exact Hall|exact Hd].
Qed.

Lemma digit_not_space (c : ascii) : is_digit c = true -> is_space c = false.
Proof.
  unfold is_digit, is_space. cbv zeta. generalize (nat_of_ascii c) as n. intros n H.
  apply andb_true_iff in H as [H1 H2]. apply Nat.leb_le in H1, H2.
  destruct (Nat.leb_spec 9 n), (Nat.leb_spec n 13), (Nat.leb_spec 28 n),
    (Nat.leb_spec n 32), (Nat.eqb_spec n 133), (Nat.eqb_spec n 160);
    simpl; (reflexivity || lia).
Qed.

Lemma digit_not_control (c : ascii) : is_digit c = true -> is_control_char c = false.
Proof.
  unfold is_digit, is_control_char. cbv zeta. generalize (nat_of_ascii c) as n. intros n H.
  apply andb_true_iff in H as [H1 H2]. apply Nat.leb_le in H1, H2.
  destruct (Nat.leb_spec n 8), (Nat.leb_spec 14 n), (Nat.leb_spec n 31);
    simpl; (reflexivity || lia).
Qed.

Lemma pretty_Z_no_space (z : Z) :
  Forall (fun c => is_space c = false) (list_ascii_of_string (pretty z)).
Proof. apply pretty_Z_chars; [exact digit_not_space|reflexivity]. Qed.

Lemma pretty_Z_no_control (z : Z) :
  Forall (fun c => is_control_char c = false) (list_ascii_of_string (pretty z)).
Proof. apply pretty_Z_chars; [exact digit_not_control|reflexivity]. Qed.

Lemma pretty_Z_nonempty (z : Z) : pretty z <> EmptyString.
Proof.
  destruct z as [|p|p]; [discriminate| |discriminate].
  unfold pretty, pretty_Z, pretty_positive, pretty, pretty_N.
  rewrite decide_False by discriminate.
  destruct (pretty_pos_shape p) as (c & rest & -> & _). discriminate.
Qed.

(** [long_from_string_base] reads the digits of a positive number of at
    most 4300 digits. *)
Lemma int_body_pretty (sign : Z) (p : positive) :
  (Z.pos p < 10 ^ Z.of_N max_str_digits)%Z ->
  int_body sign (pretty_N_go (Npos p) EmptyString) = IntOk (sign * Z.pos p).
Proof.
  intros Hb.
  assert (HbN : (Npos p < 10 ^ N.of_nat (N.to_nat max_str_digits))%N).
  { rewrite N2Nat.id. apply N2Z.inj_lt. rewrite N2Z.inj_pow. exact Hb. }
  pose proof (pretty_N_go_length _ _ EmptyString HbN) as Hlen.
  destruct (scan_digits_pretty_N_go (Npos p) EmptyString 0 0 false) as (k & Hk & Hl); [lia|].
  destruct (pretty_pos_shape p) as (c & rest & E & Hall).
  clear Hb HbN. rewrite Hl in Hlen. rewrite E in Hl. simpl in Hl.
  inversion Hall as [|? ? Hc _]; subst.
  unfold int_body. rewrite E.
  assert (Hu : Ascii.eqb c "_"%char = false).
  { apply Ascii.eqb_neq. intros ->. discriminate Hc. }
  rewrite Hu, <- E, Hk. simpl.
  assert (Hk0 : (0 + N.of_nat k =? 0)%N = false) by (apply N.eqb_neq; lia).
  assert (Hk1 : (max_str_digits <? 0 + N.of_nat k)%N = false).
  { apply N.ltb_ge. unfold max_str_digits in *. lia. }
  rewrite Hk0, Hk1. f_equal; lia.
Qed.

(** Python's [int] reads back [str(z)] for every integer of at most 4300
    digits. *)
Theorem int_parse_pretty (z : Z) :
  (Z.abs z < 10 ^ Z.of_N max_str_digits)%Z -> int_parse (pretty z) = IntOk z.
Proof.
  intros Hb. destruct z as [|p|p]; [reflexivity| |].
  - unfold pretty, pretty_Z, pretty_positive, pretty, pretty_N.
    rewrite decide_False by discriminate.
    destruct (pretty_pos_shape p) as (c & rest & E & Hall).
    unfold int_parse. rewrite E, strip_no_space
      by (eapply Forall_impl; [exact Hall|exact digit_not_space]).
    inversion Hall as [|? ? Hc _]; subst.
    assert (Hm : Ascii.eqb c "-"%char = false /\ Ascii.eqb c "+"%char = false).
    { split; apply Ascii.eqb_neq; intros ->; discriminate Hc. }
    destruct Hm as [-> ->]. rewrite <- E, int_body_pretty by exact Hb.
    f_equal; lia.
  - unfold pretty, pretty_Z, pretty_positive, pretty, pretty_N.
    rewrite decide_False by discriminate.
    destruct (pretty_pos_shape p) as (c & rest & E & Hall).
    unfold int_parse. rewrite E, strip_no_space.
    + change (int_body (-1) (String c rest) = IntOk (Z.neg p)).
      rewrite <- E, int_body_pretty by exact Hb. reflexivity.
    + simpl. constructor; [reflexivity|].
      eapply Forall_impl; [exact Hall|exact digit_not_space].
Qed.

Lemma int_parse_pretty_witness : int_parse (pretty (-1042)%Z) = IntOk (-1042)%Z.
Proof. exact (int_parse_pretty (-1042)%Z ltac:(vm_compute; reflexivity)). Defined.

(** With no (or a blank) task identifier, a limit written as the decimal
    of a non-negative integer [n] of at most 4300 digits lists the first
    [n] task records. *)
Theorem list_decimal_limit (s : pyst) (tid_arg : option string) (n : Z) :
  truthy (get_argument_opt tid_arg) = false -> (0 <= n)%Z ->
  (n < 10 ^ Z.of_N max_str_digits)%Z ->
  fst (run (ListTaskHandler_get tid_arg (Some (pretty n))) s) =
  Ok (RespWrite (dumps (JArr (take (Z.to_nat n)
        (map (fun kv => results_view kv.1 kv.2) (map_to_list (records s))))))).
Proof.
  intros Ht H0 H1.
  assert (Hp : int_parse (pretty n) = IntOk n).
  { apply int_parse_pretty. rewrite Z.abs_eq by exact H0. exact H1. }
  clear H0 H1. unfold_list. rewrite Ht.
  rewrite (remove_control_chars_none _ (pretty_Z_no_control n)).
  rewrite (strip_no_space _ (pretty_Z_no_space n)).
  destruct (pretty n) as [|c r] eqn:E; [by destruct (pretty_Z_nonempty n)|]. simpl.
  rewrite Hp. reflexivity.
Qed.

Lemma list_decimal_limit_witness :
  fst (run (ListTaskHandler_get None (Some (pretty 1%Z))) st_success) =
  Ok (RespWrite (dumps (JArr (take (Z.to_nat 1)
        (map (fun kv => results_view kv.1 kv.2) (map_to_list (records st_success))))))).
Proof.
  exact (list_decimal_limit st_success None 1%Z eq_refl ltac:(lia) ltac:(vm_compute; reflexivity)).
Defined.
